(** * raftor: the network actor of a Raft node

    A shallow embedding of [src/network/network.rs] (the [Network] actor:
    construction, peer registration, the settle-timer bootstrap, the
    [SendToRaft], [PeerConnected] and [RaftMetrics] handlers) and of
    [src/raft/network.rs] (the outbound routing of the three Raft RPCs).

    Conventions of the embedding.
    - [NodeId] (a [u64]) is [N].
    - A [HashMap] is a stdpp [gmap]; the [BTreeMap] of metrics is a strictly
      sorted association list, which is what a [BTreeMap] iterates.
    - A Rust panic ([unwrap] on [None] or [Err], [panic!]) is the [Panic]
      constructor of the small result type [Pan]; a panic inside an actor
      handler aborts the node.
    - An actor handler [fn handle(&mut self, msg, ctx) -> R] is a function
      [Network -> Msg -> Network * Pan R]: the state after the call and the
      reply (or the panic).
    - Actor addresses of collaborators ([Addr<Node>], [Addr<NodeSession>],
      [Addr<Listener>], the engine) are records of the arguments they were
      built with, or opaque handles. *)

From stdpp Require Import base gmap list strings.
From Stdlib Require Import Sorted NArith.

Open Scope N_scope.

(* ------------------------------------------------------------------ *)
(** ** Rust results and panics *)

Inductive Result (A E : Type) : Type :=
| Ok : A -> Result A E
| Err : E -> Result A E.
Arguments Ok {A E} _.
Arguments Err {A E} _.

(** The outcome of running Rust code that may panic. *)
Inductive Pan (A : Type) : Type :=
| Done : A -> Pan A
| Panic : string -> Pan A.
Arguments Done {A} _.
Arguments Panic {A} _.

(** Panic message of [Option::unwrap] on [None]. *)
Definition unwrap_none_msg : string :=
  "called `Option::unwrap()` on a `None` value".

(** Panic message prefix of [Result::unwrap] on [Err e]. *)
Definition unwrap_err_msg (e : string) : string :=
  "called `Result::unwrap()` on an `Err` value: " ++ e.

Definition unwrap {A} (o : option A) : Pan A :=
  match o with
  | Some a => Done a
  | None => Panic unwrap_none_msg
  end.

Definition unwrap_result {A} (r : Result A string) : Pan A :=
  match r with
  | Ok a => Done a
  | Err e => Panic (unwrap_err_msg e)
  end.

(** [std::time::Duration]. *)
Record Duration := Duration_new { secs : N; nanos : N }.

(* ------------------------------------------------------------------ *)
(** ** [BTreeMap<NodeId, V>]: an association list sorted by key *)

Module BTreeMap.

Definition t (V : Type) := list (N * V).

Definition new {V} : t V := [].

(** [BTreeMap::insert]: replaces the value of an existing key. *)
Fixpoint insert {V} (k : N) (v : V) (m : t V) : t V :=
  match m with
  | [] => [(k, v)]
  | (k', v') :: m' =>
      if k <? k' then (k, v) :: m
      else if k =? k' then (k, v) :: m'
      else (k', v') :: insert k v m'
  end.

Fixpoint get {V} (k : N) (m : t V) : option V :=
  match m with
  | [] => None
  | (k', v') :: m' => if k =? k' then Some v' else get k m'
  end.

(** The keys, in iteration order. *)
Definition keys {V} (m : t V) : list N := map fst m.

(** The representation invariant of a [BTreeMap]. *)
Definition wf {V} (m : t V) : Prop := Sorted N.lt (keys m).

End BTreeMap.

(* ------------------------------------------------------------------ *)
(** ** The data of [network.rs] *)

Definition NodeId := N.

Inductive NetworkState := Initialized | SingleNode | Cluster.

(** [Addr<Node>]: the outbound transport to a peer, built by
    [Node::new(id, local_id, peer_addr)]. *)
Record Node := Node_new {
  node_id : NodeId;
  node_local_id : NodeId;
  node_address : string
}.

(** [Addr<Listener>], built by [Listener::new(address, network_addr)]. *)
Record Listener := Listener_new { listener_address : string }.

(** [Addr<NodeSession>]: an inbound session, an opaque actor handle. *)
Definition SessionAddr := N.

(** [RaftNode], built by [RaftNode::new(id, members, network_addr)]; the
    network address is the one [Network] actor, so it is left implicit. *)
Record RaftNode := RaftNode_new {
  raft_id : NodeId;
  raft_members : list NodeId
}.

(** [actix_raft::admin::InitWithConfig]. *)
Record InitWithConfig := InitWithConfig_new { init_members : list NodeId }.

(** [actix_raft::State] and [actix_raft::RaftMetrics]. *)
Inductive RaftState := NonVoter | Follower | Candidate | Leader.

Record MembershipConfig := {
  is_in_joint_consensus : bool;
  members : list NodeId;
  non_voters : list NodeId;
  removing : list NodeId
}.

Record RaftMetrics := {
  metrics_id : NodeId;
  metrics_state : RaftState;
  current_term : N;
  last_log_index : N;
  last_applied : N;
  current_leader : option NodeId;
  membership_config : MembershipConfig
}.

Record Network := {
  id : NodeId;
  address : option string;
  raft : option RaftNode;
  peers : list string;
  nodes : gmap NodeId Node;
  nodes_connected : list NodeId;
  listener : option Listener;
  state : NetworkState;
  metrics : BTreeMap.t RaftMetrics;
  sessions : gmap NodeId SessionAddr
}.

(** [Network::new]. *)
Definition Network_new : Network := {|
  id := 0;
  address := None;
  peers := [];
  nodes := ∅;
  raft := None;
  listener := None;
  nodes_connected := [];
  state := Initialized;
  metrics := BTreeMap.new;
  sessions := ∅
|}.

(* ------------------------------------------------------------------ *)
(** ** The methods and handlers of [Network] *)

Section NetworkActor.

(** [crate::utils::generate_node_id]: the id derived from an address; any
    function of the address, the results below hold for every one. *)
Variable generate_node_id : string -> NodeId.

(** [Network::peers]: appends the configured peer addresses. *)
Definition Network_peers (self : Network) (ps : list string) : Network :=
  {| id := id self; address := address self; raft := raft self;
     peers := peers self ++ ps; nodes := nodes self;
     nodes_connected := nodes_connected self; listener := listener self;
     state := state self; metrics := metrics self; sessions := sessions self |}.

(** [Network::register_node]. *)
Definition register_node (self : Network) (peer_addr : string) : Network :=
  let nid := generate_node_id peer_addr in
  let node := Node_new nid (id self) peer_addr in
  {| id := id self; address := address self; raft := raft self;
     peers := peers self; nodes := <[nid := node]> (nodes self);
     nodes_connected := nodes_connected self; listener := listener self;
     state := state self; metrics := metrics self; sessions := sessions self |}.

(** [Network::get_node]. *)
Definition get_node (self : Network) (nid : NodeId) : option Node :=
  nodes self !! nid.

(** [Network::listen]. *)
Definition listen (self : Network) (addr : string) : Network :=
  {| id := generate_node_id addr; address := Some addr; raft := raft self;
     peers := peers self; nodes := nodes self;
     nodes_connected := nodes_connected self; listener := listener self;
     state := state self; metrics := metrics self; sessions := sessions self |}.

(** The [for peer in peers { if peer != *network_address { .. } }] loop of
    [started]. *)
Definition register_peers (self : Network) (network_address : string)
    (ps : list string) : Network :=
  fold_left (fun s peer =>
               if String.eqb peer network_address then s
               else register_node s peer) ps self.

(** The delay given to [ctx.run_later] in [started]. *)
Definition settle_delay : Duration := Duration_new 10 0.

(** [Actor::started]: the state after the call and the delay of the
    settle timer it schedules (its body is [settle_timer_fired]). *)
Definition started (self : Network) : Network * Pan Duration :=
  match unwrap (address self) with
  | Panic msg => (self, Panic msg)
  | Done network_address =>
      let self1 :=
        {| id := id self; address := address self; raft := raft self;
           peers := peers self; nodes := nodes self;
           nodes_connected := nodes_connected self ++ [id self];
           listener := Some (Listener_new network_address);
           state := state self; metrics := metrics self;
           sessions := sessions self |} in
      (register_peers self1 network_address (peers self1), Done settle_delay)
  end.

End NetworkActor.

(** What the settle timer hands to [Arbiter::spawn]: the
    [InitWithConfig] message sent to the engine's address. *)
Record SpawnedInit := SpawnedInit_new {
  spawn_target : RaftNode;
  spawn_msg : InitWithConfig
}.

(** The closure given to [ctx.run_later] in [started], run when the
    settle timer expires: the new state and the futures it spawns. *)
Definition settle_timer_fired (act : Network) : Network * list SpawnedInit :=
  let num_nodes := length (nodes_connected act) in
  if Nat.ltb 1 num_nodes then
    let act1 :=
      {| id := id act; address := address act; raft := raft act;
         peers := peers act; nodes := nodes act;
         nodes_connected := nodes_connected act; listener := listener act;
         state := Cluster; metrics := metrics act; sessions := sessions act |} in
    let members := nodes_connected act1 in
    let raft_node := RaftNode_new (id act1) members in
    let act2 :=
      {| id := id act1; address := address act1; raft := Some raft_node;
         peers := peers act1; nodes := nodes act1;
         nodes_connected := nodes_connected act1; listener := listener act1;
         state := state act1; metrics := metrics act1;
         sessions := sessions act1 |} in
    match raft act2 with
    | Some raft_node' =>
        let init_msg := InitWithConfig_new (nodes_connected act2) in
        (act2, [SpawnedInit_new raft_node' init_msg])
    | None => (act2, [])
    end
  else
    ({| id := id act; address := address act; raft := raft act;
        peers := peers act; nodes := nodes act;
        nodes_connected := nodes_connected act; listener := listener act;
        state := SingleNode; metrics := metrics act;
        sessions := sessions act |}, []).

(** [Handler<PeerConnected>]. *)
Definition handle_peer_connected (self : Network) (nid : NodeId)
    (session : SessionAddr) : Network :=
  {| id := id self; address := address self; raft := raft self;
     peers := peers self; nodes := nodes self;
     nodes_connected := nodes_connected self ++ [nid];
     listener := listener self; state := state self; metrics := metrics self;
     sessions := <[nid := session]> (sessions self) |}.

(** [Handler<RaftMetrics>] (the [println!] summary line is not modelled). *)
Definition handle_raft_metrics (self : Network) (msg : RaftMetrics) : Network :=
  {| id := id self; address := address self; raft := raft self;
     peers := peers self; nodes := nodes self;
     nodes_connected := nodes_connected self; listener := listener self;
     state := state self;
     metrics := BTreeMap.insert (metrics_id msg) msg (metrics self);
     sessions := sessions self |}.

(* ------------------------------------------------------------------ *)
(** ** RPC routing *)

(** Modelled from the spec: [MsgTypes] is declared in [crate::network],
    whose source is not part of the embedded files; the spec names the
    three recognised kinds and lets any other value reach the router. *)
Module MsgTypes.
Inductive t :=
| AppendEntriesRequest
| VoteRequest
| InstallSnapshotRequest
| Other (tag : N).
End MsgTypes.

(** [actix::MailboxError]. *)
Inductive MailboxError := MailboxClosed | MailboxTimeout.

(** [ERR_ROUTING_FAILURE] of [src/raft/network.rs]. *)
Definition ERR_ROUTING_FAILURE : string :=
  "Routing failures are not allowed in tests.".

Section Router.

(** The typed requests and responses of [actix_raft::messages]. *)
Variables AppendEntriesRequest VoteRequest InstallSnapshotRequest : Type.
Variables AppendEntriesResponse VoteResponse InstallSnapshotResponse : Type.

(** [serde_json::from_slice] at each request type; [Err] carries the
    displayed [serde_json::Error]. *)
Variable from_slice_append : string -> Result AppendEntriesRequest string.
Variable from_slice_vote : string -> Result VoteRequest string.
Variable from_slice_snapshot : string -> Result InstallSnapshotRequest string.

(** [serde_json::to_string] of the engine's [Result<Response, ()>]; it does
    not fail on these plain data types, so its [unwrap] is total. *)
Variable to_string_append : Result AppendEntriesResponse unit -> string.
Variable to_string_vote : Result VoteResponse unit -> string.
Variable to_string_snapshot : Result InstallSnapshotResponse unit -> string.

(** The [target] field of each request. *)
Variable target_append : AppendEntriesRequest -> NodeId.
Variable target_vote : VoteRequest -> NodeId.
Variable target_snapshot : InstallSnapshotRequest -> NodeId.

(** The [raft.addr.send(raft_msg)] future returned by [Response::fut]:
    the engine, the typed request, and what the future makes of the
    engine's reply ([map_err(|_| ())] then [serde_json::to_string]). *)
Inductive EngineCall :=
| CallAppendEntries (r : RaftNode) (msg : AppendEntriesRequest)
    (k : Result (Result AppendEntriesResponse unit) MailboxError ->
         Result string unit)
| CallVote (r : RaftNode) (msg : VoteRequest)
    (k : Result (Result VoteResponse unit) MailboxError -> Result string unit)
| CallInstallSnapshot (r : RaftNode) (msg : InstallSnapshotRequest)
    (k : Result (Result InstallSnapshotResponse unit) MailboxError ->
         Result string unit).

(** [actix::Response<String, ()>]. *)
Inductive Response :=
| Reply (r : Result string unit)
| Fut (call : EngineCall).

(** The [.map_err(|_| ()).and_then(|res| ok(to_string(&res).unwrap()))]
    chain of each engine future. *)
Definition serialize_reply {R} (to_string : Result R unit -> string)
    (r : Result (Result R unit) MailboxError) : Result string unit :=
  match r with
  | Err _ => Err tt
  | Ok res => Ok (to_string res)
  end.

(** [Handler<SendToRaft>]. *)
Definition handle_send_to_raft (self : Network) (type_id : MsgTypes.t)
    (body : string) : Network * Pan Response :=
  let res :=
    match raft self with
    | Some r =>
        match type_id with
        | MsgTypes.AppendEntriesRequest =>
            match unwrap_result (from_slice_append body) with
            | Panic m => Panic m
            | Done raft_msg =>
                Done (Fut (CallAppendEntries r raft_msg
                             (serialize_reply to_string_append)))
            end
        | MsgTypes.VoteRequest =>
            match unwrap_result (from_slice_vote body) with
            | Panic m => Panic m
            | Done raft_msg =>
                Done (Fut (CallVote r raft_msg
                             (serialize_reply to_string_vote)))
            end
        | MsgTypes.InstallSnapshotRequest =>
            match unwrap_result (from_slice_snapshot body) with
            | Panic m => Panic m
            | Done raft_msg =>
                Done (Fut (CallInstallSnapshot r raft_msg
                             (serialize_reply to_string_snapshot)))
            end
        | _ => Done (Reply (Ok ""))
        end
    | None => Done (Reply (Ok ""))
    end in
  (self, res).

(** The future an outbound handler returns: [node.send(SendRaftMessage(msg))]
    to the peer's transport, then [map_err(|_, _, _| panic!(..))] and
    [and_then(|res, _, _| fut::result(res))] on the peer's reply. *)
Record PeerCall (Req Resp : Type) := PeerCall_new {
  call_node : Node;
  call_msg : Req;
  call_k : Result (Result Resp unit) MailboxError -> Pan (Result Resp unit)
}.
#[global] Arguments call_node {Req Resp} _.
#[global] Arguments call_msg {Req Resp} _.
#[global] Arguments call_k {Req Resp} _.

Definition relay_peer_reply {Resp}
    (r : Result (Result Resp unit) MailboxError) : Pan (Result Resp unit) :=
  match r with
  | Err _ => Panic ERR_ROUTING_FAILURE
  | Ok res => Done res
  end.

(** The body shared by the three outbound handlers of [raft/network.rs]. *)
Definition route_rpc {Req Resp} (target : Req -> NodeId) (self : Network)
    (msg : Req) : Network * Pan (PeerCall Req Resp) :=
  match unwrap (get_node self (target msg)) with
  | Panic m => (self, Panic m)
  | Done node => (self, Done (PeerCall_new Req Resp node msg relay_peer_reply))
  end.

(** [Handler<AppendEntriesRequest<Data>>], [Handler<VoteRequest>],
    [Handler<InstallSnapshotRequest>]. *)
Definition handle_append_entries :
    Network -> AppendEntriesRequest ->
    Network * Pan (PeerCall AppendEntriesRequest AppendEntriesResponse) :=
  route_rpc target_append.

Definition handle_vote :
    Network -> VoteRequest -> Network * Pan (PeerCall VoteRequest VoteResponse) :=
  route_rpc target_vote.

Definition handle_install_snapshot :
    Network -> InstallSnapshotRequest ->
    Network * Pan (PeerCall InstallSnapshotRequest InstallSnapshotResponse) :=
  route_rpc target_snapshot.

(* ------------------------------------------------------------------ *)
(** ** The actor's life: one message at a time *)

Variable generate_node_id : string -> NodeId.

(** The node: the [Network] actor, whether it has been started, the
    [run_later] timer still pending in its context, and the futures handed
    to [Arbiter::spawn]. *)
Record World := {
  w_net : Network;
  w_running : bool;
  w_timer : option Duration;
  w_spawned : list SpawnedInit
}.

Definition World_init : World :=
  {| w_net := Network_new; w_running := false; w_timer := None;
     w_spawned := [] |}.

(** The calls made on the struct before [.start()], the start itself, the
    settle timer, and the messages of the mailbox. *)
Inductive Event :=
| EvListen (addr : string)
| EvPeers (ps : list string)
| EvRegisterNode (peer_addr : string)
| EvStart
| EvSettleTimer
| EvSendToRaft (type_id : MsgTypes.t) (body : string)
| EvPeerConnected (nid : NodeId) (session : SessionAddr)
| EvRaftMetrics (m : RaftMetrics)
| EvAppendEntries (msg : AppendEntriesRequest)
| EvVote (msg : VoteRequest)
| EvInstallSnapshot (msg : InstallSnapshotRequest).

Definition with_net (w : World) (n : Network) : World :=
  {| w_net := n; w_running := w_running w; w_timer := w_timer w;
     w_spawned := w_spawned w |}.

(** Keeps the state of a handler that returned, drops the node on a panic. *)
Definition after_handler {R} (w : World) (r : Network * Pan R) : option World :=
  match r with
  | (n, Done _) => Some (with_net w n)
  | (_, Panic _) => None
  end.

(** One step; [None] when the event cannot happen there or the node
    panicked. *)
Definition step (w : World) (e : Event) : option World :=
  match e with
  | EvListen a =>
      if w_running w then None
      else Some (with_net w (listen generate_node_id (w_net w) a))
  | EvPeers ps =>
      if w_running w then None else Some (with_net w (Network_peers (w_net w) ps))
  | EvRegisterNode p =>
      if w_running w then None
      else Some (with_net w (register_node generate_node_id (w_net w) p))
  | EvStart =>
      if w_running w then None
      else match started generate_node_id (w_net w) with
           | (n, Done d) =>
               Some {| w_net := n; w_running := true; w_timer := Some d;
                       w_spawned := w_spawned w |}
           | (_, Panic _) => None
           end
  | EvSettleTimer =>
      match w_timer w with
      | None => None
      | Some _ =>
          let (n, sp) := settle_timer_fired (w_net w) in
          Some {| w_net := n; w_running := w_running w; w_timer := None;
                  w_spawned := w_spawned w ++ sp |}
      end
  | EvSendToRaft k b =>
      if w_running w then after_handler w (handle_send_to_raft (w_net w) k b)
      else None
  | EvPeerConnected nid s =>
      if w_running w then Some (with_net w (handle_peer_connected (w_net w) nid s))
      else None
  | EvRaftMetrics m =>
      if w_running w then Some (with_net w (handle_raft_metrics (w_net w) m))
      else None
  | EvAppendEntries msg =>
      if w_running w then after_handler w (handle_append_entries (w_net w) msg)
      else None
  | EvVote msg =>
      if w_running w then after_handler w (handle_vote (w_net w) msg) else None
  | EvInstallSnapshot msg =>
      if w_running w then after_handler w (handle_install_snapshot (w_net w) msg)
      else None
  end.

Fixpoint run (w : World) (evs : list Event) : option World :=
  match evs with
  | [] => Some w
  | e :: evs' =>
      match step w e with
      | Some w' => run w' evs'
      | None => None
      end
  end.

End Router.

#[global] Arguments EvListen {_ _ _} _.
#[global] Arguments EvPeers {_ _ _} _.
#[global] Arguments EvRegisterNode {_ _ _} _.
#[global] Arguments EvStart {_ _ _}.
#[global] Arguments EvSettleTimer {_ _ _}.
#[global] Arguments EvSendToRaft {_ _ _} _ _.
#[global] Arguments EvPeerConnected {_ _ _} _ _.
#[global] Arguments EvRaftMetrics {_ _ _} _.
#[global] Arguments EvAppendEntries {_ _ _} _.
#[global] Arguments EvVote {_ _ _} _.
#[global] Arguments EvInstallSnapshot {_ _ _} _.
#[global] Arguments Reply {_ _ _ _ _ _} _.
#[global] Arguments Fut {_ _ _ _ _ _} _.

(* ------------------------------------------------------------------ *)
(** ** Statements of the spec, in the embedding's vocabulary *)

(** The snapshot last pushed for [nid] by a sequence of [RaftMetrics]
    messages, starting from the stored one [prior]. *)
Definition last_snapshot (nid : NodeId) (ms : list RaftMetrics)
    (prior : option RaftMetrics) : option RaftMetrics :=
  fold_left (fun acc m => if metrics_id m =? nid then Some m else acc) ms prior.

(** The outbound routing contract: an absent destination panics with a
    fixed message; a present one gets the request, and the peer's reply is
    handed back as it came (a dead mailbox panics with
    [ERR_ROUTING_FAILURE]). *)
Definition routes_as_described {Req Resp} (target : Req -> NodeId)
    (handle : Network -> Req -> Network * Pan (PeerCall Req Resp)) : Prop :=
  forall self msg,
    match get_node self (target msg) with
    | None => handle self msg = (self, Panic unwrap_none_msg)
    | Some node =>
        exists c, handle self msg = (self, Done c) /\
          call_node c = node /\ call_msg c = msg /\
          (forall res, call_k c (Ok res) = Done res) /\
          (forall e, call_k c (Err e) = Panic ERR_ROUTING_FAILURE)
    end.

(** What a reachable node further keeps: once in [Cluster], the engine was
    built with the local id and a prefix of the connected-peer list, and
    exactly its one [InitWithConfig] has been spawned; before that nothing
    is spawned; every stored session belongs to an id of the connected
    list. *)
Definition world_inv_ext (w : World) : Prop :=
  let n := w_net w in
  (state n = Cluster ->
   exists r, raft n = Some r /\ raft_id r = id n /\
     (exists later, nodes_connected n = raft_members r ++ later) /\
     w_spawned w = [SpawnedInit_new r (InitWithConfig_new (raft_members r))]) /\
  (state n <> Cluster -> w_spawned w = []) /\
  (forall k s, sessions n !! k = Some s -> In k (nodes_connected n)).

(** Every registered node is keyed by the id derived from its address. *)
Definition keyed_by_address (generate_node_id : string -> NodeId)
    (nodes : gmap NodeId Node) : Prop :=
  map_Forall (fun k node => k = generate_node_id (node_address node)) nodes.

(** The invariant of every node reachable from [World_init]. *)
Definition world_inv (generate_node_id : string -> NodeId) (w : World) : Prop :=
  let n := w_net w in
  (raft n <> None -> state n = Cluster) /\
  (w_timer w <> None ->
     state n = Initialized /\ w_running w = true /\ w_timer w = Some settle_delay) /\
  (state n <> Initialized -> w_running w = true /\ w_timer w = None) /\
  (w_running w = false -> nodes_connected n = []) /\
  (w_running w = true -> exists rest, nodes_connected n = id n :: rest) /\
  keyed_by_address generate_node_id (nodes n).


Section DecodeSpec.
Variables AppendEntriesRequest VoteRequest InstallSnapshotRequest : Type.
Variable from_slice_append : string -> Result AppendEntriesRequest string.
Variable from_slice_vote : string -> Result VoteRequest string.
Variable from_slice_snapshot : string -> Result InstallSnapshotRequest string.

(** [body] is not a valid encoding of a request of the recognised kind
    [type_id]. *)
Definition decode_fails (type_id : MsgTypes.t) (body : string) : Prop :=
  match type_id with
  | MsgTypes.AppendEntriesRequest => exists e, from_slice_append body = Err e
  | MsgTypes.VoteRequest => exists e, from_slice_vote body = Err e
  | MsgTypes.InstallSnapshotRequest => exists e, from_slice_snapshot body = Err e
  | MsgTypes.Other _ => False
  end.
End DecodeSpec.

(** A concrete instance of the collaborators, to run the model on:
    requests and responses are numbers, a request's target is itself, the
    empty body does not parse, and an address's id is a polynomial hash
    of its characters, wrapped to 64 bits. *)
Module Sample.
Definition from_slice (body : string) : Result N string :=
  if String.eqb body "" then Err "EOF while parsing a value" else Ok 7.
Definition to_string (r : Result N unit) : string :=
  match r with Ok _ => "{Ok}" | Err _ => "{Err}" end.
Definition target (n : N) : NodeId := n.
Definition generate_node_id (addr : string) : NodeId :=
  fold_left (fun h c => (h * 31 + Ascii.N_of_ascii c) mod 2 ^ 64)
    (String.list_ascii_of_string addr) 0.

Definition metrics_of (nid term : N) : RaftMetrics := {|
  metrics_id := nid; metrics_state := Follower; current_term := term;
  last_log_index := 0; last_applied := 0; current_leader := None;
  membership_config := {| is_in_joint_consensus := false; members := [nid];
                          non_voters := []; removing := [] |} |}.

Definition step := step N N N N N N from_slice from_slice from_slice
  to_string to_string to_string target target target generate_node_id.
Definition run := run N N N N N N from_slice from_slice from_slice
  to_string to_string to_string target target target generate_node_id.
Definition handle_send_to_raft :=
  handle_send_to_raft N N N N N N from_slice from_slice from_slice
    to_string to_string to_string.

Definition local_addr : string := "10.0.0.1:8000".
Definition peer_addr : string := "10.0.0.2:8000".
Definition peer_id : NodeId := Eval vm_compute in generate_node_id peer_addr.

(** A node configured with itself and one peer, started, and reached by
    one inbound peer before the settle timer. *)
Definition evs_cluster : list (Event N N N) :=
  [EvListen local_addr; EvPeers [local_addr; peer_addr]; EvStart;
   EvPeerConnected peer_id 1].

(** A node configured with no peer: listen, start, settle timer. *)
Definition evs_single : list (Event N N N) :=
  [EvListen local_addr; EvStart; EvSettleTimer].

Definition world_of (o : option World) : World :=
  match o with Some w => w | None => World_init end.

Definition w_cluster : World :=
  Eval vm_compute in world_of (run World_init evs_cluster).
Definition w_cluster_fired : World :=
  Eval vm_compute in world_of (step w_cluster EvSettleTimer).
Definition w_single : World :=
  Eval vm_compute in world_of (run World_init evs_single).

(** [listen] then [peers] on a fresh [Network], before [started]. *)
Definition net_configured : Network :=
  Network_peers (listen generate_node_id Network_new local_addr)
    [local_addr; peer_addr; peer_addr].
End Sample.

(* ------------------------------------------------------------------ *)
(** ** [BTreeMap] facts *)

Module BTreeMapFacts.
Import BTreeMap.

Lemma insert_hdrel {V} (k a : N) (v : V) (m : t V) :
  HdRel N.lt a (keys m) -> a < k -> HdRel N.lt a (keys (insert k v m)).
Proof.
  unfold keys. intros Hhd Hak.
  destruct m as [|[k' v'] m']; cbn; [constructor; exact Hak|].
  destruct (k <? k'); [constructor; exact Hak|].
  destruct (k =? k'); [constructor; exact Hak|].
  cbn in *. apply HdRel_inv in Hhd. constructor. exact Hhd.
Qed.

Lemma insert_wf {V} (k : N) (v : V) (m : t V) : wf m -> wf (insert k v m).
Proof.
  unfold wf, keys. induction m as [|[k' v'] m' IH]; cbn; intros Hs.
  - repeat constructor.
  - apply Sorted_inv in Hs as [Hs Hhd].
    destruct (N.ltb_spec k k').
    + cbn. constructor; [constructor; assumption | constructor; lia].
    + destruct (N.eqb_spec k k').
      * subst. cbn. constructor; assumption.
      * cbn. constructor; [apply IH; exact Hs|].
        apply insert_hdrel; [exact Hhd | lia].
Qed.

Lemma get_insert {V} (j k : N) (v : V) (m : t V) :
  get j (insert k v m) = if j =? k then Some v else get j m.
Proof.
  induction m as [|[k' v'] m' IH]; cbn; [reflexivity|].
  destruct (k <? k'); [reflexivity|].
  destruct (N.eqb_spec k k') as [->|Hne]; cbn.
  - destruct (j =? k'); reflexivity.
  - rewrite IH. destruct (N.eqb_spec j k'), (N.eqb_spec j k); subst;
      congruence.
Qed.

Lemma sorted_lt_nodup (l : list N) : Sorted N.lt l -> NoDup l.
Proof.
  intros Hs. apply Sorted_StronglySorted in Hs; [|intros ???; lia].
  induction Hs as [|a l Hs IH Hall]; constructor; [|exact IH].
  intros Hin.
  rewrite Forall_forall in Hall. specialize (Hall a Hin). lia.
Qed.

End BTreeMapFacts.

(* ------------------------------------------------------------------ *)
(** ** Facts about [Network]'s methods *)

Section NetworkFacts.

Variable generate_node_id : string -> NodeId.

Lemma register_peers_eq (self : Network) (a : string) (ps : list string) :
  register_peers generate_node_id self a ps =
  {| id := id self; address := address self; raft := raft self;
     peers := peers self;
     nodes := fold_left (fun m p =>
                if String.eqb p a then m
                else <[generate_node_id p :=
                         Node_new (generate_node_id p) (id self) p]> m)
                ps (nodes self);
     nodes_connected := nodes_connected self; listener := listener self;
     state := state self; metrics := metrics self; sessions := sessions self |}.
Proof.
  unfold register_peers. revert self.
  induction ps as [|p ps IH]; intros self; cbn [fold_left].
  - destruct self; reflexivity.
  - destruct (String.eqb p a); rewrite IH; reflexivity.
Qed.

Lemma fold_register_filter (self_id : NodeId) (a : string) (ps : list string)
    (m : gmap NodeId Node) :
  fold_left (fun m p =>
               if String.eqb p a then m
               else <[generate_node_id p :=
                        Node_new (generate_node_id p) self_id p]> m) ps m =
  fold_left (fun m p =>
               <[generate_node_id p := Node_new (generate_node_id p) self_id p]> m)
            (filter (fun p => negb (String.eqb p a)) ps) m.
Proof.
  revert m. induction ps as [|p ps IH]; intros m; cbn; [reflexivity|].
  destruct (String.eqb p a); cbn; apply IH.
Qed.

Lemma fold_register_keyed (self_id : NodeId) (a : string) (ps : list string)
    (m : gmap NodeId Node) :
  keyed_by_address generate_node_id m ->
  keyed_by_address generate_node_id
    (fold_left (fun m p =>
                  if String.eqb p a then m
                  else <[generate_node_id p :=
                           Node_new (generate_node_id p) self_id p]> m) ps m).
Proof.
  revert m. induction ps as [|p ps IH]; intros m Hm; cbn; [exact Hm|].
  apply IH. destruct (String.eqb p a); [exact Hm|].
  apply map_Forall_insert_2; [reflexivity | exact Hm].
Qed.

Lemma keyed_unique (m : gmap NodeId Node) k1 k2 n1 n2 :
  keyed_by_address generate_node_id m -> m !! k1 = Some n1 -> m !! k2 = Some n2 ->
  node_address n1 = node_address n2 -> k1 = k2.
Proof.
  intros Hm H1 H2 Ha.
  rewrite (Hm _ _ H1), (Hm _ _ H2), Ha. reflexivity.
Qed.

End NetworkFacts.

(* ------------------------------------------------------------------ *)
(** ** The invariant of a running node *)

Section WorldFacts.

Variables AppendEntriesRequest VoteRequest InstallSnapshotRequest : Type.
Variables AppendEntriesResponse VoteResponse InstallSnapshotResponse : Type.
Variable from_slice_append : string -> Result AppendEntriesRequest string.
Variable from_slice_vote : string -> Result VoteRequest string.
Variable from_slice_snapshot : string -> Result InstallSnapshotRequest string.
Variable to_string_append : Result AppendEntriesResponse unit -> string.
Variable to_string_vote : Result VoteResponse unit -> string.
Variable to_string_snapshot : Result InstallSnapshotResponse unit -> string.
Variable target_append : AppendEntriesRequest -> NodeId.
Variable target_vote : VoteRequest -> NodeId.
Variable target_snapshot : InstallSnapshotRequest -> NodeId.
Variable generate_node_id : string -> NodeId.

Local Abbreviation step :=
  (step AppendEntriesRequest VoteRequest InstallSnapshotRequest
     AppendEntriesResponse VoteResponse InstallSnapshotResponse
     from_slice_append from_slice_vote from_slice_snapshot
     to_string_append to_string_vote to_string_snapshot
     target_append target_vote target_snapshot generate_node_id).
Local Abbreviation run :=
  (run AppendEntriesRequest VoteRequest InstallSnapshotRequest
     AppendEntriesResponse VoteResponse InstallSnapshotResponse
     from_slice_append from_slice_vote from_slice_snapshot
     to_string_append to_string_vote to_string_snapshot
     target_append target_vote target_snapshot generate_node_id).

Lemma after_handler_some {R} (w w' : World) (n : Network) (r : Pan R) :
  after_handler w (n, r) = Some w' -> w' = with_net w n.
Proof. destruct r; cbn; congruence. Qed.

Lemma after_handler_frame {R} (w w' : World) (r : Network * Pan R) :
  fst r = w_net w -> after_handler w r = Some w' -> w' = with_net w (w_net w).
Proof.
  destruct r as [n [a|m]]; cbn; intros -> H; congruence.
Qed.

Lemma route_rpc_fst {Req Resp} (target : Req -> NodeId) self msg :
  fst (route_rpc (Resp := Resp) target self msg) = self.
Proof. unfold route_rpc. destruct (unwrap _); reflexivity. Qed.

Lemma after_route_rpc {Req Resp} (target : Req -> NodeId) w msg w' :
  after_handler w (route_rpc (Resp := Resp) target (w_net w) msg) = Some w' ->
  w' = with_net w (w_net w).
Proof.
  destruct (route_rpc target (w_net w) msg) as [n r] eqn:E.
  intros H. apply after_handler_some in H. subst.
  pose proof (route_rpc_fst (Resp := Resp) target (w_net w) msg) as F.
  rewrite E in F. cbn in F. subst. reflexivity.
Qed.

Lemma world_inv_with_net_self w :
  world_inv generate_node_id w -> world_inv generate_node_id (with_net w (w_net w)).
Proof. destruct w; exact (fun H => H). Qed.

Lemma world_inv_init : world_inv generate_node_id World_init.
Proof.
  unfold world_inv; cbn. split_and!; try congruence.
  apply map_Forall_empty.
Qed.

Lemma step_inv w e w' :
  world_inv generate_node_id w -> step w e = Some w' ->
  world_inv generate_node_id w'.
Proof.
  intros Hinv Hstep. pose proof Hinv as (I1 & I2 & I3 & I4 & I5 & I6).
  destruct w as [n running timer spawned]; cbn in *.
  destruct e;
    cbn -[started settle_timer_fired handle_send_to_raft route_rpc] in Hstep.
  - (* listen *)
    destruct running; [discriminate|]. injection Hstep as <-.
    unfold world_inv; cbn. split_and!; auto. congruence.
  - (* peers *)
    destruct running; [discriminate|]. injection Hstep as <-.
    unfold world_inv; cbn. split_and!; auto.
  - (* register_node *)
    destruct running; [discriminate|]. injection Hstep as <-.
    unfold world_inv; cbn. split_and!; auto.
    apply map_Forall_insert_2; [reflexivity | exact I6].
  - (* start *)
    destruct running; [discriminate|].
    unfold started in Hstep. destruct (address n) as [a|] eqn:Ha;
      cbn -[register_peers] in Hstep; [|discriminate].
    injection Hstep as <-. unfold world_inv.
    rewrite register_peers_eq; cbn.
    assert (Hst : state n = Initialized)
      by (destruct (state n); auto; exfalso; destruct I3; congruence).
    split_and!; auto; try congruence.
    + intros _. exists []. rewrite I4 by reflexivity. reflexivity.
    + apply fold_register_keyed. exact I6.
  - (* settle timer *)
    destruct timer as [d|]; [|discriminate].
    destruct I2 as (Hst & Hrun & Hd); [congruence|].
    unfold settle_timer_fired in Hstep.
    destruct (Nat.ltb 1 (length (nodes_connected n))); cbn in Hstep;
      injection Hstep as <-; unfold world_inv; cbn; split_and!; auto;
      try congruence.
    intros Hr. exfalso. apply Hr. destruct (raft n); [|reflexivity].
    specialize (I1 ltac:(discriminate)). congruence.
  - (* SendToRaft *)
    destruct running; [|discriminate].
    apply after_handler_frame in Hstep; [|reflexivity].
    subst. apply world_inv_with_net_self. exact Hinv.
  - (* PeerConnected *)
    destruct running; [|discriminate]. injection Hstep as <-.
    unfold world_inv; cbn. split_and!; auto; [discriminate|].
    intros _. destruct (I5 eq_refl) as [rest Hr]. rewrite Hr.
    exists (rest ++ [nid]). reflexivity.
  - (* RaftMetrics *)
    destruct running; [|discriminate]. injection Hstep as <-.
    unfold world_inv; cbn. split_and!; auto.
  - (* AppendEntries *)
    destruct running; [|discriminate].
    apply after_route_rpc in Hstep. subst. apply world_inv_with_net_self, Hinv.
  - (* Vote *)
    destruct running; [|discriminate].
    apply after_route_rpc in Hstep. subst. apply world_inv_with_net_self, Hinv.
  - (* InstallSnapshot *)
    destruct running; [|discriminate].
    apply after_route_rpc in Hstep. subst. apply world_inv_with_net_self, Hinv.
Qed.

Lemma run_inv w evs w' :
  world_inv generate_node_id w -> run w evs = Some w' ->
  world_inv generate_node_id w'.
Proof.
  revert w. induction evs as [|e evs IH]; intros w Hinv Hrun; cbn in Hrun.
  - congruence.
  - destruct (step w e) as [w1|] eqn:Hs; [|discriminate].
    exact (IH w1 (step_inv w e w1 Hinv Hs) Hrun).
Qed.

End WorldFacts.

(* ------------------------------------------------------------------ *)
(** ** Helpers for the claims *)

Lemma route_rpc_as_described {Req Resp} (target : Req -> NodeId) :
  routes_as_described target (route_rpc (Resp := Resp) target).
Proof.
  intros self msg. unfold route_rpc, get_node.
  destruct (nodes self !! target msg) as [node|]; cbn; [|reflexivity].
  eexists. split; [reflexivity|]. cbn. split_and!; reflexivity.
Qed.

Lemma last_snapshot_cons nid m ms prior :
  last_snapshot nid (m :: ms) prior =
  last_snapshot nid ms (if metrics_id m =? nid then Some m else prior).
Proof. reflexivity. Qed.

Lemma fold_raft_metrics_get self ms nid :
  BTreeMap.get nid (metrics (fold_left handle_raft_metrics ms self)) =
  last_snapshot nid ms (BTreeMap.get nid (metrics self)).
Proof.
  revert self. induction ms as [|m ms IH]; intros self; [reflexivity|].
  cbn [fold_left]. rewrite IH, last_snapshot_cons. f_equal.
  cbn. rewrite BTreeMapFacts.get_insert, N.eqb_sym. reflexivity.
Qed.

Lemma fold_raft_metrics_wf self ms :
  BTreeMap.wf (metrics self) ->
  BTreeMap.wf (metrics (fold_left handle_raft_metrics ms self)).
Proof.
  revert self. induction ms as [|m ms IH]; intros self Hwf; [exact Hwf|].
  cbn [fold_left]. apply IH. cbn. apply BTreeMapFacts.insert_wf, Hwf.
Qed.

(* ------------------------------------------------------------------ *)
(** ** The claims *)

Section Claims.

Variables AppendEntriesRequest VoteRequest InstallSnapshotRequest : Type.
Variables AppendEntriesResponse VoteResponse InstallSnapshotResponse : Type.
Variable from_slice_append : string -> Result AppendEntriesRequest string.
Variable from_slice_vote : string -> Result VoteRequest string.
Variable from_slice_snapshot : string -> Result InstallSnapshotRequest string.
Variable to_string_append : Result AppendEntriesResponse unit -> string.
Variable to_string_vote : Result VoteResponse unit -> string.
Variable to_string_snapshot : Result InstallSnapshotResponse unit -> string.
Variable target_append : AppendEntriesRequest -> NodeId.
Variable target_vote : VoteRequest -> NodeId.
Variable target_snapshot : InstallSnapshotRequest -> NodeId.
Variable generate_node_id : string -> NodeId.

Local Abbreviation step :=
  (step AppendEntriesRequest VoteRequest InstallSnapshotRequest
     AppendEntriesResponse VoteResponse InstallSnapshotResponse
     from_slice_append from_slice_vote from_slice_snapshot
     to_string_append to_string_vote to_string_snapshot
     target_append target_vote target_snapshot generate_node_id).
Local Abbreviation run :=
  (run AppendEntriesRequest VoteRequest InstallSnapshotRequest
     AppendEntriesResponse VoteResponse InstallSnapshotResponse
     from_slice_append from_slice_vote from_slice_snapshot
     to_string_append to_string_vote to_string_snapshot
     target_append target_vote target_snapshot generate_node_id).
Local Abbreviation handle_send :=
  (handle_send_to_raft AppendEntriesRequest VoteRequest InstallSnapshotRequest
     AppendEntriesResponse VoteResponse InstallSnapshotResponse
     from_slice_append from_slice_vote from_slice_snapshot
     to_string_append to_string_vote to_string_snapshot).
Local Abbreviation World_inv := (world_inv generate_node_id).

Lemma single_node_step w e w' :
  World_inv w -> state (w_net w) = SingleNode -> step w e = Some w' ->
  state (w_net w') = SingleNode.
Proof.
  intros Hinv Hs Hstep. destruct Hinv as (_ & _ & I3 & _).
  destruct (I3 ltac:(congruence)) as [Hrun Htimer].
  destruct w as [n running timer spawned]; cbn in *. subst running timer.
  destruct e;
    cbn -[started settle_timer_fired handle_send_to_raft route_rpc] in Hstep;
    try discriminate;
    try (injection Hstep as <-; exact Hs);
    apply after_handler_frame in Hstep; try reflexivity;
    try apply route_rpc_fst; subst; exact Hs.
Qed.

Lemma single_node_run w evs w' :
  World_inv w -> state (w_net w) = SingleNode -> run w evs = Some w' ->
  World_inv w' /\ state (w_net w') = SingleNode.
Proof.
  revert w. induction evs as [|e evs IH]; intros w Hinv Hs Hrun; cbn in Hrun.
  - injection Hrun as <-. split; assumption.
  - destruct (step w e) as [w1|] eqn:Hst; [|discriminate].
    apply (IH w1); [eapply step_inv; eassumption | | exact Hrun].
    eapply single_node_step; eassumption.
Qed.

(** C1: once the node is running, the settle timer, scheduled by
    [started] with a delay of 10 seconds, fires in state [Initialized] with
    the local id at the head of the connected-peer list; it moves the node
    to [Cluster] when that list has more than one entry and to
    [SingleNode] otherwise. In particular every bootstrap run whose window
    sees no inbound peer (whatever peers it is configured with, none
    included) and that gets as far as the timer ends in [SingleNode]. *)
Theorem settle_timer_decides_mode :
  (forall evs w w',
     run World_init evs = Some w -> step w EvSettleTimer = Some w' ->
     w_timer w = Some (Duration_new 10 0) /\
     state (w_net w) = Initialized /\
     (exists rest, nodes_connected (w_net w) = id (w_net w) :: rest) /\
     state (w_net w') =
       (if Nat.ltb 1 (length (nodes_connected (w_net w)))
        then Cluster else SingleNode)) /\
  (forall addr ps w,
     run World_init [EvListen addr; EvPeers ps; EvStart; EvSettleTimer] = Some w ->
     state (w_net w) = SingleNode).
Proof.
  split.
  - intros evs w w' Hrun Hstep.
    pose proof (run_inv _ _ _ _ _ _ from_slice_append from_slice_vote
                  from_slice_snapshot to_string_append to_string_vote
                  to_string_snapshot target_append target_vote target_snapshot
                  generate_node_id _ _ _ (world_inv_init generate_node_id) Hrun)
      as (I1 & I2 & I3 & I4 & I5 & I6).
    destruct w as [n running timer spawned];
      cbn [w_net w_running w_timer w_spawned] in *.
    destruct timer as [d|]; [|discriminate].
    destruct I2 as (Hst & Hr & Hd); [congruence|]. subst running.
    split_and!; [exact Hd | exact Hst | exact (I5 eq_refl) |].
    cbn -[settle_timer_fired] in Hstep. unfold settle_timer_fired in Hstep.
    destruct (Nat.ltb 1 (length (nodes_connected n))); cbn in Hstep;
      injection Hstep as Hw; subst w'; reflexivity.
  - intros addr ps w Hrun.
    cbn -[register_peers] in Hrun. rewrite register_peers_eq in Hrun. cbn in Hrun.
    injection Hrun as <-. reflexivity.
Qed.

(** C2: on the [Cluster] transition the engine is built from the local id
    and the connected-peer list as it is when the timer fires, and the
    [InitWithConfig] spawned towards that engine carries the same list. *)
Theorem cluster_engine_membership (act : Network) :
  (1 < length (nodes_connected act))%nat ->
  let '(act', spawned) := settle_timer_fired act in
  state act' = Cluster /\
  raft act' = Some (RaftNode_new (id act) (nodes_connected act)) /\
  nodes_connected act' = nodes_connected act /\
  spawned = [SpawnedInit_new (RaftNode_new (id act) (nodes_connected act))
                             (InitWithConfig_new (nodes_connected act))].
Proof.
  intros Hlen. unfold settle_timer_fired.
  rewrite (proj2 (Nat.ltb_lt 1 _) Hlen). cbn. split_and!; reflexivity.
Qed.

(** C3: with no engine, or for a kind other than the three Raft requests,
    [SendToRaft] answers [Ok("")] at once (no engine future). *)
Theorem send_to_raft_empty_success (self : Network) (type_id : MsgTypes.t)
    (body : string) :
  (raft self = None \/
   (type_id <> MsgTypes.AppendEntriesRequest /\
    type_id <> MsgTypes.VoteRequest /\
    type_id <> MsgTypes.InstallSnapshotRequest)) ->
  handle_send self type_id body = (self, Done (Reply (Ok ""))).
Proof.
  unfold handle_send_to_raft.
  intros [Hnone | (H1 & H2 & H3)]; [rewrite Hnone; reflexivity|].
  destruct (raft self); [|reflexivity].
  destruct type_id; [congruence | congruence | congruence | reflexivity].
Qed.

(** C4: each of the three outbound handlers looks the destination up in
    [nodes]: an absent id panics with the fixed [Option::unwrap] message
    (no error result reaches the engine); a present one forwards the
    request to that peer's transport and hands its reply back unchanged
    (a failed delivery panics with [ERR_ROUTING_FAILURE]). *)
Theorem outbound_routing :
  routes_as_described target_append
    (handle_append_entries AppendEntriesRequest AppendEntriesResponse
       target_append) /\
  routes_as_described target_vote
    (handle_vote VoteRequest VoteResponse target_vote) /\
  routes_as_described target_snapshot
    (handle_install_snapshot InstallSnapshotRequest InstallSnapshotResponse
       target_snapshot).
Proof.
  split_and!; apply route_rpc_as_described.
Qed.

(** C5: with an engine present, a recognised kind whose body does not
    decode makes [SendToRaft] panic on [Result::unwrap], so no engine
    future is produced. *)
Theorem send_to_raft_decode_failure_panics (self : Network) (r : RaftNode)
    (type_id : MsgTypes.t) (body : string) :
  raft self = Some r ->
  decode_fails AppendEntriesRequest VoteRequest InstallSnapshotRequest
    from_slice_append from_slice_vote from_slice_snapshot type_id body ->
  exists e, handle_send self type_id body = (self, Panic (unwrap_err_msg e)).
Proof.
  intros Hr Hdec. unfold handle_send_to_raft. rewrite Hr.
  destruct type_id; cbn in Hdec; [| | |contradiction];
    destruct Hdec as [e He]; exists e; rewrite He; reflexivity.
Qed.

(** C6: in every reachable state the engine is present only in state
    [Cluster] (so it is absent while [Initialized]), and once the node is in
    [SingleNode] every later state is still [SingleNode] without engine. *)
Theorem engine_only_in_cluster evs w :
  run World_init evs = Some w ->
  (raft (w_net w) <> None -> state (w_net w) = Cluster) /\
  (state (w_net w) = Initialized -> raft (w_net w) = None) /\
  (state (w_net w) = SingleNode ->
   forall evs' w', run w evs' = Some w' ->
   state (w_net w') = SingleNode /\ raft (w_net w') = None).
Proof.
  intros Hrun.
  assert (Hinv : World_inv w)
    by exact (run_inv _ _ _ _ _ _ from_slice_append from_slice_vote
                from_slice_snapshot to_string_append to_string_vote
                to_string_snapshot target_append target_vote target_snapshot
                generate_node_id _ _ _ (world_inv_init generate_node_id) Hrun).
  pose proof Hinv as (I1 & _).
  split_and!.
  - exact I1.
  - intros Hst. destruct (raft (w_net w)) eqn:E; [|reflexivity].
    specialize (I1 ltac:(discriminate)). congruence.
  - intros Hs evs' w' Hrun'.
    destruct (single_node_run w evs' w' Hinv Hs Hrun') as [(J1 & _) Hs'].
    split; [exact Hs'|].
    destruct (raft (w_net w')) eqn:E; [|reflexivity].
    specialize (J1 ltac:(discriminate)). congruence.
Qed.

(** C7: [register_node] keys the descriptor by the derived id and
    overwrites a previous one, so registering an address twice is the same
    as once; [started] registers every configured address except its own
    bind address; and in every reachable state two descriptors with the
    same address have the same id. *)
Theorem register_peer_dedup :
  (forall self peer_addr,
     nodes (register_node generate_node_id self peer_addr) =
     <[generate_node_id peer_addr :=
         Node_new (generate_node_id peer_addr) (id self) peer_addr]> (nodes self)) /\
  (forall self peer_addr,
     register_node generate_node_id
       (register_node generate_node_id self peer_addr) peer_addr =
     register_node generate_node_id self peer_addr) /\
  (forall self a,
     address self = Some a ->
     nodes (fst (started generate_node_id self)) =
     fold_left (fun m p =>
                  <[generate_node_id p := Node_new (generate_node_id p) (id self) p]> m)
               (filter (fun p => negb (String.eqb p a)) (peers self)) (nodes self)) /\
  (forall evs w k1 k2 n1 n2,
     run World_init evs = Some w ->
     nodes (w_net w) !! k1 = Some n1 -> nodes (w_net w) !! k2 = Some n2 ->
     node_address n1 = node_address n2 -> k1 = k2).
Proof.
  split_and!.
  - intros self p. reflexivity.
  - intros self p. unfold register_node. cbn. rewrite insert_insert_eq.
    reflexivity.
  - intros self a Ha. unfold started. rewrite Ha. cbn -[register_peers].
    rewrite register_peers_eq. cbn. apply fold_register_filter.
  - intros evs w k1 k2 n1 n2 Hrun.
    pose proof (run_inv _ _ _ _ _ _ from_slice_append from_slice_vote
                  from_slice_snapshot to_string_append to_string_vote
                  to_string_snapshot target_append target_vote target_snapshot
                  generate_node_id _ _ _ (world_inv_init generate_node_id) Hrun)
      as (_ & _ & _ & _ & _ & I6).
    apply (keyed_unique generate_node_id (nodes (w_net w))); assumption.
Qed.

(** C8: [PeerConnected] appends the id to the connected-peer list (a
    repeated id is appended again) and stores the session under the id,
    replacing an earlier one. *)
Theorem peer_connected_appends (self : Network) (nid : NodeId)
    (session : SessionAddr) :
  nodes_connected (handle_peer_connected self nid session) =
    nodes_connected self ++ [nid] /\
  sessions (handle_peer_connected self nid session) =
    <[nid := session]> (sessions self) /\
  (forall s1 s2,
     let self' := handle_peer_connected (handle_peer_connected self nid s1) nid s2 in
     nodes_connected self' = nodes_connected self ++ [nid; nid] /\
     sessions self' !! nid = Some s2).
Proof.
  split_and!; [reflexivity | reflexivity |].
  intros s1 s2. cbn. split.
  - rewrite <- app_assoc. reflexivity.
  - apply lookup_insert_eq.
Qed.

(** C9: after any sequence of [RaftMetrics] messages the metrics map is
    still a sorted map without repeated ids, and it holds, per id, the last
    snapshot pushed for it; pushing two snapshots for id 1 leaves the
    single entry of the second. *)
Theorem metrics_latest_per_id (self : Network) (ms : list RaftMetrics) :
  BTreeMap.wf (metrics self) ->
  let self' := fold_left handle_raft_metrics ms self in
  BTreeMap.wf (metrics self') /\
  NoDup (BTreeMap.keys (metrics self')) /\
  (forall nid, BTreeMap.get nid (metrics self') =
               last_snapshot nid ms (BTreeMap.get nid (metrics self))) /\
  (forall m1 m2, metrics_id m1 = 1 -> metrics_id m2 = 1 ->
     metrics (fold_left handle_raft_metrics [m1; m2] Network_new) = [(1, m2)]).
Proof.
  intros Hwf self'. split_and!.
  - apply fold_raft_metrics_wf, Hwf.
  - apply BTreeMapFacts.sorted_lt_nodup, fold_raft_metrics_wf, Hwf.
  - intros nid. apply fold_raft_metrics_get.
  - intros m1 m2 H1 H2. cbn. rewrite H1, H2. reflexivity.
Qed.

(** C10: [SendToRaft] leaves the [Network] as it was, for every kind and
    body, with or without an engine; a node that handles it is unchanged. *)
Theorem send_to_raft_frame (type_id : MsgTypes.t) (body : string) :
  (forall self, fst (handle_send self type_id body) = self) /\
  (forall w w', step w (EvSendToRaft type_id body) = Some w' -> w' = w).
Proof.
  split.
  - intros self. reflexivity.
  - intros w w' Hstep. cbn -[handle_send_to_raft] in Hstep.
    destruct (w_running w); [|discriminate].
    apply after_handler_frame in Hstep; [|reflexivity].
    subst. destruct w; reflexivity.
Qed.

End Claims.

(* ------------------------------------------------------------------ *)
(** ** The claims on sample inputs *)

Lemma settle_timer_decides_mode_witness :
  Sample.run World_init Sample.evs_cluster = Some Sample.w_cluster /\
  Sample.step Sample.w_cluster EvSettleTimer = Some Sample.w_cluster_fired /\
  (w_timer Sample.w_cluster = Some (Duration_new 10 0) /\
   state (w_net Sample.w_cluster) = Initialized /\
   (exists rest, nodes_connected (w_net Sample.w_cluster) =
                 id (w_net Sample.w_cluster) :: rest) /\
   state (w_net Sample.w_cluster_fired) =
     (if Nat.ltb 1 (length (nodes_connected (w_net Sample.w_cluster)))
      then Cluster else SingleNode)) /\
  Sample.run World_init
    [EvListen Sample.local_addr; EvPeers []; EvStart; EvSettleTimer] =
    Some Sample.w_single /\
  state (w_net Sample.w_single) = SingleNode.
Proof.
  assert (H1 : Sample.run World_init Sample.evs_cluster = Some Sample.w_cluster)
    by (vm_compute; reflexivity).
  assert (H2 : Sample.step Sample.w_cluster EvSettleTimer = Some Sample.w_cluster_fired)
    by (vm_compute; reflexivity).
  assert (H3 : Sample.run World_init
                 [EvListen Sample.local_addr; EvPeers []; EvStart; EvSettleTimer] =
               Some Sample.w_single) by (vm_compute; reflexivity).
  pose proof (settle_timer_decides_mode N N N N N N
                Sample.from_slice Sample.from_slice Sample.from_slice
                Sample.to_string Sample.to_string Sample.to_string
                Sample.target Sample.target Sample.target
                Sample.generate_node_id) as [T1 T2].
  split; [exact H1|]. split; [exact H2|].
  split; [exact (T1 Sample.evs_cluster Sample.w_cluster Sample.w_cluster_fired H1 H2)|].
  split; [exact H3|].
  exact (T2 Sample.local_addr [] Sample.w_single H3).
Defined.

Lemma cluster_engine_membership_witness :
  let act := handle_peer_connected (w_net Sample.w_single) Sample.peer_id 1 in
  (1 < length (nodes_connected act))%nat /\
  let '(act', spawned) := settle_timer_fired act in
  state act' = Cluster /\
  raft act' = Some (RaftNode_new (id act) (nodes_connected act)) /\
  nodes_connected act' = nodes_connected act /\
  spawned = [SpawnedInit_new (RaftNode_new (id act) (nodes_connected act))
                             (InitWithConfig_new (nodes_connected act))].
Proof.
  intros act. split.
  - vm_compute. lia.
  - apply (cluster_engine_membership act). vm_compute. lia.
Defined.

Lemma send_to_raft_empty_success_witness :
  (raft (w_net Sample.w_cluster_fired) = None \/
   (MsgTypes.Other 9 <> MsgTypes.AppendEntriesRequest /\
    MsgTypes.Other 9 <> MsgTypes.VoteRequest /\
    MsgTypes.Other 9 <> MsgTypes.InstallSnapshotRequest)) /\
  Sample.handle_send_to_raft (w_net Sample.w_cluster_fired) (MsgTypes.Other 9) "{}" =
    (w_net Sample.w_cluster_fired, Done (Reply (Ok ""))).
Proof.
  assert (H : raft (w_net Sample.w_cluster_fired) = None \/
              (MsgTypes.Other 9 <> MsgTypes.AppendEntriesRequest /\
               MsgTypes.Other 9 <> MsgTypes.VoteRequest /\
               MsgTypes.Other 9 <> MsgTypes.InstallSnapshotRequest))
    by (right; split_and!; discriminate).
  split; [exact H|].
  exact (send_to_raft_empty_success N N N N N N
           Sample.from_slice Sample.from_slice Sample.from_slice
           Sample.to_string Sample.to_string Sample.to_string
           (w_net Sample.w_cluster_fired) (MsgTypes.Other 9) "{}" H).
Defined.

Lemma send_to_raft_decode_failure_panics_witness :
  raft (w_net Sample.w_cluster_fired) =
    Some (RaftNode_new (Sample.generate_node_id Sample.local_addr)
                       [Sample.generate_node_id Sample.local_addr; Sample.peer_id]) /\
  decode_fails N N N Sample.from_slice Sample.from_slice Sample.from_slice
    MsgTypes.VoteRequest "" /\
  exists e, Sample.handle_send_to_raft (w_net Sample.w_cluster_fired)
              MsgTypes.VoteRequest "" =
            (w_net Sample.w_cluster_fired, Panic (unwrap_err_msg e)).
Proof.
  assert (Hr : raft (w_net Sample.w_cluster_fired) =
               Some (RaftNode_new (Sample.generate_node_id Sample.local_addr)
                       [Sample.generate_node_id Sample.local_addr; Sample.peer_id]))
    by (vm_compute; reflexivity).
  assert (Hd : decode_fails N N N Sample.from_slice Sample.from_slice
                 Sample.from_slice MsgTypes.VoteRequest "")
    by (eexists; vm_compute; reflexivity).
  split; [exact Hr|]. split; [exact Hd|].
  exact (send_to_raft_decode_failure_panics N N N N N N
           Sample.from_slice Sample.from_slice Sample.from_slice
           Sample.to_string Sample.to_string Sample.to_string
           (w_net Sample.w_cluster_fired) _ MsgTypes.VoteRequest "" Hr Hd).
Defined.

Lemma engine_only_in_cluster_witness :
  Sample.run World_init Sample.evs_single = Some Sample.w_single /\
  state (w_net Sample.w_single) = SingleNode /\
  ((raft (w_net Sample.w_single) <> None ->
    state (w_net Sample.w_single) = Cluster) /\
   (state (w_net Sample.w_single) = Initialized ->
    raft (w_net Sample.w_single) = None) /\
   (state (w_net Sample.w_single) = SingleNode ->
    forall evs' w', Sample.run Sample.w_single evs' = Some w' ->
    state (w_net w') = SingleNode /\ raft (w_net w') = None)).
Proof.
  assert (H : Sample.run World_init Sample.evs_single = Some Sample.w_single)
    by (vm_compute; reflexivity).
  split; [exact H|]. split; [vm_compute; reflexivity|].
  exact (engine_only_in_cluster N N N N N N
           Sample.from_slice Sample.from_slice Sample.from_slice
           Sample.to_string Sample.to_string Sample.to_string
           Sample.target Sample.target Sample.target Sample.generate_node_id
           Sample.evs_single Sample.w_single H).
Defined.

Lemma register_peer_dedup_witness :
  address Sample.net_configured = Some Sample.local_addr /\
  nodes (fst (started Sample.generate_node_id Sample.net_configured)) =
    {[ Sample.peer_id := Node_new Sample.peer_id
                           (Sample.generate_node_id Sample.local_addr)
                           Sample.peer_addr ]}.
Proof.
  assert (Ha : address Sample.net_configured = Some Sample.local_addr)
    by reflexivity.
  split; [exact Ha|].
  rewrite (proj1 (proj2 (proj2 (register_peer_dedup N N N N N N
             Sample.from_slice Sample.from_slice Sample.from_slice
             Sample.to_string Sample.to_string Sample.to_string
             Sample.target Sample.target Sample.target Sample.generate_node_id)))
             Sample.net_configured Sample.local_addr Ha).
  vm_compute. reflexivity.
Defined.

Lemma metrics_latest_per_id_witness :
  BTreeMap.wf (metrics Network_new) /\
  (let self' := fold_left handle_raft_metrics
                  [Sample.metrics_of 1 1; Sample.metrics_of 1 2] Network_new in
   BTreeMap.wf (metrics self') /\
   NoDup (BTreeMap.keys (metrics self')) /\
   (forall nid, BTreeMap.get nid (metrics self') =
                last_snapshot nid [Sample.metrics_of 1 1; Sample.metrics_of 1 2]
                  (BTreeMap.get nid (metrics Network_new))) /\
   (forall m1 m2, metrics_id m1 = 1 -> metrics_id m2 = 1 ->
      metrics (fold_left handle_raft_metrics [m1; m2] Network_new) = [(1, m2)])).
Proof.
  assert (Hwf : BTreeMap.wf (metrics Network_new)) by constructor.
  split; [exact Hwf|].
  exact (metrics_latest_per_id Network_new
           [Sample.metrics_of 1 1; Sample.metrics_of 1 2] Hwf).
Defined.

Lemma send_to_raft_frame_witness :
  Sample.step Sample.w_cluster_fired
    (EvSendToRaft MsgTypes.AppendEntriesRequest "{}") = Some Sample.w_cluster_fired /\
  Sample.w_cluster_fired = Sample.w_cluster_fired.
Proof.
  assert (H : Sample.step Sample.w_cluster_fired
                (EvSendToRaft MsgTypes.AppendEntriesRequest "{}") =
              Some Sample.w_cluster_fired) by (vm_compute; reflexivity).
  split; [exact H|].
  exact (proj2 (send_to_raft_frame N N N N N N
                  Sample.from_slice Sample.from_slice Sample.from_slice
                  Sample.to_string Sample.to_string Sample.to_string
                  Sample.target Sample.target Sample.target
                  Sample.generate_node_id MsgTypes.AppendEntriesRequest "{}")
           Sample.w_cluster_fired Sample.w_cluster_fired H).
Defined.

(* ------------------------------------------------------------------ *)
(** ** Further properties of the code *)

Section Extras.

Variables AppendEntriesRequest VoteRequest InstallSnapshotRequest : Type.
Variables AppendEntriesResponse VoteResponse InstallSnapshotResponse : Type.
Variable from_slice_append : string -> Result AppendEntriesRequest string.
Variable from_slice_vote : string -> Result VoteRequest string.
Variable from_slice_snapshot : string -> Result InstallSnapshotRequest string.
Variable to_string_append : Result AppendEntriesResponse unit -> string.
Variable to_string_vote : Result VoteResponse unit -> string.
Variable to_string_snapshot : Result InstallSnapshotResponse unit -> string.
Variable target_append : AppendEntriesRequest -> NodeId.
Variable target_vote : VoteRequest -> NodeId.
Variable target_snapshot : InstallSnapshotRequest -> NodeId.
Variable generate_node_id : string -> NodeId.

Local Abbreviation step :=
  (step AppendEntriesRequest VoteRequest InstallSnapshotRequest
     AppendEntriesResponse VoteResponse InstallSnapshotResponse
     from_slice_append from_slice_vote from_slice_snapshot
     to_string_append to_string_vote to_string_snapshot
     target_append target_vote target_snapshot generate_node_id).
Local Abbreviation run :=
  (run AppendEntriesRequest VoteRequest InstallSnapshotRequest
     AppendEntriesResponse VoteResponse InstallSnapshotResponse
     from_slice_append from_slice_vote from_slice_snapshot
     to_string_append to_string_vote to_string_snapshot
     target_append target_vote target_snapshot generate_node_id).
Local Abbreviation handle_send :=
  (handle_send_to_raft AppendEntriesRequest VoteRequest InstallSnapshotRequest
     AppendEntriesResponse VoteResponse InstallSnapshotResponse
     from_slice_append from_slice_vote from_slice_snapshot
     to_string_append to_string_vote to_string_snapshot).
Local Abbreviation World_inv := (world_inv generate_node_id).

Lemma run_inv_init evs w : run World_init evs = Some w -> World_inv w.
Proof.
  apply (run_inv _ _ _ _ _ _ from_slice_append from_slice_vote
           from_slice_snapshot to_string_append to_string_vote
           to_string_snapshot target_append target_vote target_snapshot
           generate_node_id), world_inv_init.
Qed.

Lemma world_inv_ext_with_net_self w :
  world_inv_ext w -> world_inv_ext (with_net w (w_net w)).
Proof. destruct w; exact (fun H => H). Qed.

Lemma world_inv_ext_init : world_inv_ext World_init.
Proof.
  unfold world_inv_ext; cbn. split_and!; [discriminate | reflexivity |].
  intros k s H. rewrite lookup_empty in H. discriminate.
Qed.

Lemma step_inv_ext w e w' :
  World_inv w -> world_inv_ext w -> step w e = Some w' -> world_inv_ext w'.
Proof.
  intros Hinv Hext Hstep.
  destruct Hinv as (I1 & I2 & I3 & I4 & I5 & I6).
  destruct Hext as (J1 & J2 & J3).
  destruct w as [n running timer spawned];
    cbn [w_net w_running w_timer w_spawned] in *.
  assert (Hpre : running = false -> state n = Initialized).
  { intros Hr. destruct (state n) eqn:E; [reflexivity| |];
      exfalso; destruct I3 as [I3 _]; congruence. }
  destruct e;
    cbn -[started settle_timer_fired handle_send_to_raft route_rpc] in Hstep.
  - destruct running; [discriminate|]. injection Hstep as <-.
    unfold world_inv_ext; cbn. split_and!; auto.
    intros Hc. rewrite Hpre in Hc by reflexivity. discriminate.
  - destruct running; [discriminate|]. injection Hstep as <-.
    unfold world_inv_ext; cbn. split_and!; auto.
  - destruct running; [discriminate|]. injection Hstep as <-.
    unfold world_inv_ext; cbn. split_and!; auto.
  - destruct running; [discriminate|].
    unfold started in Hstep. destruct (address n) as [a|];
      cbn -[register_peers] in Hstep; [|discriminate].
    injection Hstep as <-. unfold world_inv_ext.
    rewrite register_peers_eq; cbn.
    split_and!.
    + intros Hc. rewrite Hpre in Hc by reflexivity. discriminate.
    + exact J2.
    + intros k s Hk. apply in_or_app. left. exact (J3 k s Hk).
  - destruct timer as [d|]; [|discriminate].
    destruct I2 as (Hst & Hr & Hd); [congruence|].
    unfold settle_timer_fired in Hstep.
    destruct (Nat.ltb 1 (length (nodes_connected n))); cbn in Hstep;
      injection Hstep as Hw; subst w'; unfold world_inv_ext; cbn;
      rewrite J2 by (rewrite Hst; discriminate).
    + split_and!; [| intros Hc; congruence | exact J3].
      intros _. eexists. split_and!; [reflexivity | reflexivity | |reflexivity].
      exists []. rewrite app_nil_r. reflexivity.
    + split_and!; [intros Hc; congruence | reflexivity | exact J3].
  - destruct running; [|discriminate].
    apply after_handler_frame in Hstep; [|reflexivity].
    subst. apply world_inv_ext_with_net_self. split_and!; assumption.
  - destruct running; [|discriminate]. injection Hstep as <-.
    unfold world_inv_ext; cbn. split_and!; auto.
    + intros Hc. destruct (J1 Hc) as (r & Hr & Hid & (later & Hl) & Hs).
      exists r. split_and!; try assumption.
      exists (later ++ [nid]). rewrite Hl, app_assoc. reflexivity.
    + intros k s Hk. apply in_or_app.
      destruct (decide (k = nid)) as [->|Hne].
      * right. left. reflexivity.
      * left. rewrite lookup_insert_ne in Hk by congruence. exact (J3 k s Hk).
  - destruct running; [|discriminate]. injection Hstep as <-.
    unfold world_inv_ext; cbn. split_and!; auto.
  - destruct running; [|discriminate].
    apply after_route_rpc in Hstep. subst.
    apply world_inv_ext_with_net_self. split_and!; assumption.
  - destruct running; [|discriminate].
    apply after_route_rpc in Hstep. subst.
    apply world_inv_ext_with_net_self. split_and!; assumption.
  - destruct running; [|discriminate].
    apply after_route_rpc in Hstep. subst.
    apply world_inv_ext_with_net_self. split_and!; assumption.
Qed.

Lemma run_inv_ext_init evs w :
  run World_init evs = Some w -> World_inv w /\ world_inv_ext w.
Proof.
  assert (Hgen : forall w0, World_inv w0 -> world_inv_ext w0 ->
            run w0 evs = Some w -> World_inv w /\ world_inv_ext w).
  { induction evs as [|e evs IH]; intros w0 H0 H0' Hrun; cbn in Hrun.
    - injection Hrun as <-. split; assumption.
    - destruct (step w0 e) as [w1|] eqn:Hs; [|discriminate].
      apply IH with w1; [eapply step_inv; eassumption
                        | eapply step_inv_ext; eassumption | exact Hrun]. }
  intros Hrun. apply (Hgen World_init); [apply world_inv_init
                                         | apply world_inv_ext_init | exact Hrun].
Qed.

(** After bootstrap left [Initialized], no step changes the state or the
    engine. *)
Lemma settled_step w e w' :
  World_inv w -> state (w_net w) <> Initialized -> step w e = Some w' ->
  state (w_net w') = state (w_net w) /\ raft (w_net w') = raft (w_net w).
Proof.
  intros Hinv Hs Hstep. destruct Hinv as (_ & _ & I3 & _).
  destruct (I3 Hs) as [Hrun Htimer].
  destruct w as [n running timer spawned]; cbn in *. subst running timer.
  destruct e;
    cbn -[started settle_timer_fired handle_send_to_raft route_rpc] in Hstep;
    try discriminate;
    try (injection Hstep as <-; split; reflexivity);
    apply after_handler_frame in Hstep; try reflexivity;
    try apply route_rpc_fst; subst; split; reflexivity.
Qed.

Lemma settled_run w evs w' :
  World_inv w -> state (w_net w) <> Initialized -> run w evs = Some w' ->
  state (w_net w') = state (w_net w) /\ raft (w_net w') = raft (w_net w).
Proof.
  revert w. induction evs as [|e evs IH]; intros w Hinv Hs Hrun; cbn in Hrun.
  - injection Hrun as <-. split; reflexivity.
  - destruct (step w e) as [w1|] eqn:Hst; [|discriminate].
    destruct (settled_step w e w1 Hinv Hs Hst) as [E1 E2].
    destruct (IH w1) as [F1 F2]; [eapply step_inv; eassumption | congruence
                                 | exact Hrun | ].
    split; congruence.
Qed.

Lemma fold_register_keeps (lid : NodeId) (a : string) (ps : list string)
    (m : gmap NodeId Node) (k : NodeId) :
  (exists n, m !! k = Some n /\ node_local_id n = lid /\
             generate_node_id (node_address n) = k) ->
  exists n,
    fold_left (fun m p =>
                 if String.eqb p a then m
                 else <[generate_node_id p :=
                          Node_new (generate_node_id p) lid p]> m) ps m !! k = Some n /\
    node_local_id n = lid /\ generate_node_id (node_address n) = k.
Proof.
  revert m. induction ps as [|q ps IH]; intros m Hm; [exact Hm|].
  cbn [fold_left]. apply IH. destruct (String.eqb q a); [exact Hm|].
  destruct (decide (generate_node_id q = k)) as [<-|Hne].
  - eexists. rewrite lookup_insert_eq. split_and!; reflexivity.
  - rewrite lookup_insert_ne by exact Hne. exact Hm.
Qed.

Lemma fold_register_present (lid : NodeId) (a p : string) (ps : list string)
    (m : gmap NodeId Node) :
  In p ps -> p <> a ->
  exists n,
    fold_left (fun m p =>
                 if String.eqb p a then m
                 else <[generate_node_id p :=
                          Node_new (generate_node_id p) lid p]> m) ps m
      !! generate_node_id p = Some n /\
    node_local_id n = lid /\
    generate_node_id (node_address n) = generate_node_id p.
Proof.
  revert m. induction ps as [|q ps IH]; intros m Hin Hne; [destruct Hin|].
  cbn [fold_left]. destruct Hin as [->|Hin]; [|exact (IH _ Hin Hne)].
  apply fold_register_keeps.
  destruct (String.eqb_spec p a) as [|_]; [contradiction|].
  eexists. rewrite lookup_insert_eq. split_and!; reflexivity.
Qed.

(** X1: [register_node] followed by [get_node] at the derived id finds
    the new descriptor, and leaves every other id as it was. *)
Theorem register_node_get_node (self : Network) (peer_addr : string) :
  get_node (register_node generate_node_id self peer_addr)
    (generate_node_id peer_addr) =
    Some (Node_new (generate_node_id peer_addr) (id self) peer_addr) /\
  (forall k, k <> generate_node_id peer_addr ->
     get_node (register_node generate_node_id self peer_addr) k = get_node self k).
Proof.
  unfold get_node, register_node; cbn. split.
  - apply lookup_insert_eq.
  - intros k Hk. apply lookup_insert_ne. congruence.
Qed.

(** X2: [started] on a [Network] that was never given an address (no
    [listen]) panics on [unwrap] before changing anything. *)
Theorem started_without_listen_panics (self : Network) :
  address self = None ->
  started generate_node_id self = (self, Panic unwrap_none_msg).
Proof. intros H. unfold started. rewrite H. reflexivity. Qed.

(** X3: when [started] succeeds after [listen addr], it has bound the
    listener to [addr], appended the id derived from [addr] to the
    connected list, scheduled the 10 s timer, and left the bootstrap state,
    the engine, the metrics and the sessions alone. *)
Theorem started_after_listen (self : Network) (addr : string)
    (self2 : Network) (d : Duration) :
  started generate_node_id (listen generate_node_id self addr) = (self2, Done d) ->
    d = Duration_new 10 0 /\
    id self2 = generate_node_id addr /\
    listener self2 = Some (Listener_new addr) /\
    nodes_connected self2 = nodes_connected self ++ [generate_node_id addr] /\
    state self2 = state self /\ raft self2 = raft self /\
    metrics self2 = metrics self /\ sessions self2 = sessions self.
Proof.
  intros H. cbn -[register_peers] in H. rewrite register_peers_eq in H.
  injection H as <- <-. cbn. split_and!; reflexivity.
Qed.

(** X4: after [started], every configured peer address other than the
    bind address has a descriptor under its derived id, built with the
    local id, so each outbound handler addressed to that id forwards to it
    instead of panicking. *)
Theorem configured_peers_routable (self : Network) (a p : string) :
  address self = Some a -> In p (peers self) -> p <> a ->
  let self' := fst (started generate_node_id self) in
  exists n, get_node self' (generate_node_id p) = Some n /\
    node_local_id n = id self /\
    generate_node_id (node_address n) = generate_node_id p /\
    (forall msg, target_append msg = generate_node_id p ->
       exists c, handle_append_entries _ AppendEntriesResponse target_append self' msg =
                 (self', Done c) /\ call_node c = n) /\
    (forall msg, target_vote msg = generate_node_id p ->
       exists c, handle_vote _ VoteResponse target_vote self' msg =
                 (self', Done c) /\ call_node c = n) /\
    (forall msg, target_snapshot msg = generate_node_id p ->
       exists c, handle_install_snapshot _ InstallSnapshotResponse target_snapshot
                   self' msg = (self', Done c) /\ call_node c = n).
Proof.
  intros Ha Hin Hne self'.
  assert (Hnodes : nodes self' =
    fold_left (fun m q =>
                 if String.eqb q a then m
                 else <[generate_node_id q :=
                          Node_new (generate_node_id q) (id self) q]> m)
              (peers self) (nodes self)).
  { subst self'. unfold started. rewrite Ha. cbn -[register_peers].
    rewrite register_peers_eq. reflexivity. }
  destruct (fold_register_present (id self) a p (peers self) (nodes self) Hin Hne)
    as (n & Hn & Hl & Hg).
  rewrite <- Hnodes in Hn.
  exists n. split_and!; [exact Hn | exact Hl | exact Hg | | |];
    intros msg Ht; unfold handle_append_entries, handle_vote,
      handle_install_snapshot, route_rpc, get_node;
    rewrite Ht, Hn; cbn; eexists; split; reflexivity.
Qed.

(** X5: the settle timer touches only the bootstrap state, the engine and
    the spawned futures; when fewer than two nodes are connected it keeps
    the (absent) engine and spawns nothing. *)
Theorem settle_timer_frame (act : Network) :
  let '(act', spawned) := settle_timer_fired act in
  id act' = id act /\ address act' = address act /\ peers act' = peers act /\
  nodes act' = nodes act /\ nodes_connected act' = nodes_connected act /\
  listener act' = listener act /\ metrics act' = metrics act /\
  sessions act' = sessions act /\
  (Nat.ltb 1 (length (nodes_connected act)) = false ->
   state act' = SingleNode /\ raft act' = raft act /\ spawned = []).
Proof.
  unfold settle_timer_fired.
  destruct (Nat.ltb 1 (length (nodes_connected act))); cbn;
    split_and!; try reflexivity; intros H;
    first [discriminate H | split_and!; reflexivity].
Qed.

(** X6: in every reachable node, the engine is initialised exactly once:
    before [Cluster] no [InitWithConfig] has been spawned, and in [Cluster]
    exactly one has, to the current engine, carrying its membership. *)
Theorem engine_initialised_once evs w :
  run World_init evs = Some w ->
  (state (w_net w) <> Cluster -> w_spawned w = []) /\
  (state (w_net w) = Cluster ->
   exists r, raft (w_net w) = Some r /\
     w_spawned w = [SpawnedInit_new r (InitWithConfig_new (raft_members r))]).
Proof.
  intros Hrun. destruct (run_inv_ext_init evs w Hrun) as [_ (J1 & J2 & _)].
  split; [exact J2|].
  intros Hc. destruct (J1 Hc) as (r & Hr & _ & _ & Hs). exists r. split; assumption.
Qed.

(** X7: in [Cluster] the engine carries the local id and a membership that
    is a prefix of the connected list (later connections are appended
    after it); [Cluster] is never left and the engine is never replaced. *)
Theorem cluster_membership_fixed evs w :
  run World_init evs = Some w -> state (w_net w) = Cluster ->
  exists r, raft (w_net w) = Some r /\ raft_id r = id (w_net w) /\
    (exists later, nodes_connected (w_net w) = raft_members r ++ later) /\
    (forall evs' w', run w evs' = Some w' ->
       state (w_net w') = Cluster /\ raft (w_net w') = Some r).
Proof.
  intros Hrun Hc. destruct (run_inv_ext_init evs w Hrun) as [Hinv (J1 & _)].
  destruct (J1 Hc) as (r & Hr & Hid & Hpre & _).
  exists r. split_and!; try assumption.
  intros evs' w' Hrun'.
  destruct (settled_run w evs' w' Hinv ltac:(rewrite Hc; discriminate) Hrun')
    as [E1 E2].
  split; congruence.
Qed.

(** X8: in every reachable node, each stored inbound session belongs to
    an id of the connected-peer list. *)
Theorem sessions_in_connected evs w :
  run World_init evs = Some w ->
  forall k s, sessions (w_net w) !! k = Some s -> In k (nodes_connected (w_net w)).
Proof.
  intros Hrun. destruct (run_inv_ext_init evs w Hrun) as [_ (_ & _ & J3)].
  exact J3.
Qed.

(** X9: with an engine present, a [SendToRaft] whose body decodes yields
    the engine future for the decoded request; that future answers the
    serialised engine reply, or [Err(())] when the engine's mailbox fails. *)
Theorem send_to_raft_forwards (self : Network) (r : RaftNode) (body : string) :
  raft self = Some r ->
  (forall req, from_slice_append body = Ok req ->
     exists k, handle_send self MsgTypes.AppendEntriesRequest body =
               (self, Done (Fut (CallAppendEntries _ _ _ _ _ _ r req k))) /\
       (forall res, k (Ok res) = Ok (to_string_append res)) /\
       (forall e, k (Err e) = Err tt)) /\
  (forall req, from_slice_vote body = Ok req ->
     exists k, handle_send self MsgTypes.VoteRequest body =
               (self, Done (Fut (CallVote _ _ _ _ _ _ r req k))) /\
       (forall res, k (Ok res) = Ok (to_string_vote res)) /\
       (forall e, k (Err e) = Err tt)) /\
  (forall req, from_slice_snapshot body = Ok req ->
     exists k, handle_send self MsgTypes.InstallSnapshotRequest body =
               (self, Done (Fut (CallInstallSnapshot _ _ _ _ _ _ r req k))) /\
       (forall res, k (Ok res) = Ok (to_string_snapshot res)) /\
       (forall e, k (Err e) = Err tt)).
Proof.
  intros Hr. unfold handle_send_to_raft. rewrite Hr.
  split_and!; intros req Hreq; rewrite Hreq; cbn;
    eexists; split_and!; try reflexivity.
Qed.

End Extras.

(* ------------------------------------------------------------------ *)
(** ** The further properties on sample inputs *)

Lemma register_node_get_node_witness :
  5 <> Sample.peer_id /\
  get_node (register_node Sample.generate_node_id Network_new Sample.peer_addr) 5 =
    get_node Network_new 5.
Proof.
  assert (H : 5 <> Sample.peer_id) by (vm_compute; discriminate).
  split; [exact H|].
  exact (proj2 (register_node_get_node Sample.generate_node_id Network_new
                  Sample.peer_addr) 5 H).
Defined.

Lemma started_without_listen_panics_witness :
  address Network_new = None /\
  started Sample.generate_node_id Network_new = (Network_new, Panic unwrap_none_msg).
Proof.
  assert (H : address Network_new = None) by reflexivity.
  split; [exact H|].
  exact (started_without_listen_panics Sample.generate_node_id Network_new H).
Defined.

Lemma started_after_listen_witness :
  started Sample.generate_node_id
    (listen Sample.generate_node_id Network_new Sample.local_addr) =
    (fst (started Sample.generate_node_id
            (listen Sample.generate_node_id Network_new Sample.local_addr)),
     Done (Duration_new 10 0)) /\
  id (fst (started Sample.generate_node_id
             (listen Sample.generate_node_id Network_new Sample.local_addr))) =
    Sample.generate_node_id Sample.local_addr.
Proof.
  assert (H : started Sample.generate_node_id
                (listen Sample.generate_node_id Network_new Sample.local_addr) =
              (fst (started Sample.generate_node_id
                      (listen Sample.generate_node_id Network_new Sample.local_addr)),
               Done (Duration_new 10 0))) by (vm_compute; reflexivity).
  split; [exact H|].
  exact (proj1 (proj2 (started_after_listen Sample.generate_node_id Network_new
                         Sample.local_addr _ _ H))).
Defined.

Lemma configured_peers_routable_witness :
  address Sample.net_configured = Some Sample.local_addr /\
  In Sample.peer_addr (peers Sample.net_configured) /\
  Sample.peer_addr <> Sample.local_addr /\
  exists n, get_node (fst (started Sample.generate_node_id Sample.net_configured))
              Sample.peer_id = Some n.
Proof.
  assert (Ha : address Sample.net_configured = Some Sample.local_addr)
    by reflexivity.
  assert (Hin : In Sample.peer_addr (peers Sample.net_configured))
    by (cbn; right; left; reflexivity).
  assert (Hne : Sample.peer_addr <> Sample.local_addr) by discriminate.
  split_and!; [exact Ha | exact Hin | exact Hne |].
  destruct (configured_peers_routable N N N N N N
              Sample.target Sample.target Sample.target Sample.generate_node_id
              Sample.net_configured Sample.local_addr Sample.peer_addr Ha Hin Hne)
    as (n & Hn & _).
  exists n. exact Hn.
Defined.

Lemma settle_timer_frame_witness :
  Nat.ltb 1 (length (nodes_connected (w_net Sample.w_single))) = false /\
  snd (settle_timer_fired (w_net Sample.w_single)) = [].
Proof.
  assert (H : Nat.ltb 1 (length (nodes_connected (w_net Sample.w_single))) = false)
    by (vm_compute; reflexivity).
  split; [exact H|].
  pose proof (settle_timer_frame (w_net Sample.w_single)) as T.
  destruct (settle_timer_fired (w_net Sample.w_single)) as [a' sp]. cbn.
  destruct T as (_ & _ & _ & _ & _ & _ & _ & _ & T).
  destruct (T H) as (_ & _ & Hsp). exact Hsp.
Defined.

Lemma engine_initialised_once_witness :
  Sample.run World_init (Sample.evs_cluster ++ [EvSettleTimer]) =
    Some Sample.w_cluster_fired /\
  state (w_net Sample.w_cluster_fired) = Cluster /\
  exists r, raft (w_net Sample.w_cluster_fired) = Some r /\
    w_spawned Sample.w_cluster_fired =
      [SpawnedInit_new r (InitWithConfig_new (raft_members r))].
Proof.
  assert (H : Sample.run World_init (Sample.evs_cluster ++ [EvSettleTimer]) =
              Some Sample.w_cluster_fired) by (vm_compute; reflexivity).
  assert (Hc : state (w_net Sample.w_cluster_fired) = Cluster)
    by (vm_compute; reflexivity).
  split; [exact H|]. split; [exact Hc|].
  exact (proj2 (engine_initialised_once N N N N N N
                  Sample.from_slice Sample.from_slice Sample.from_slice
                  Sample.to_string Sample.to_string Sample.to_string
                  Sample.target Sample.target Sample.target
                  Sample.generate_node_id _ _ H) Hc).
Defined.

Lemma cluster_membership_fixed_witness :
  Sample.run World_init (Sample.evs_cluster ++ [EvSettleTimer]) =
    Some Sample.w_cluster_fired /\
  state (w_net Sample.w_cluster_fired) = Cluster /\
  exists r, raft (w_net Sample.w_cluster_fired) = Some r /\
    raft_id r = id (w_net Sample.w_cluster_fired).
Proof.
  assert (H : Sample.run World_init (Sample.evs_cluster ++ [EvSettleTimer]) =
              Some Sample.w_cluster_fired) by (vm_compute; reflexivity).
  assert (Hc : state (w_net Sample.w_cluster_fired) = Cluster)
    by (vm_compute; reflexivity).
  split; [exact H|]. split; [exact Hc|].
  destruct (cluster_membership_fixed N N N N N N
              Sample.from_slice Sample.from_slice Sample.from_slice
              Sample.to_string Sample.to_string Sample.to_string
              Sample.target Sample.target Sample.target
              Sample.generate_node_id _ _ H Hc) as (r & Hr & Hid & _).
  exists r. split; assumption.
Defined.

Lemma sessions_in_connected_witness :
  Sample.run World_init Sample.evs_cluster = Some Sample.w_cluster /\
  sessions (w_net Sample.w_cluster) !! Sample.peer_id = Some 1 /\
  In Sample.peer_id (nodes_connected (w_net Sample.w_cluster)).
Proof.
  assert (H : Sample.run World_init Sample.evs_cluster = Some Sample.w_cluster)
    by (vm_compute; reflexivity).
  assert (Hs : sessions (w_net Sample.w_cluster) !! Sample.peer_id = Some 1)
    by (vm_compute; reflexivity).
  split; [exact H|]. split; [exact Hs|].
  exact (sessions_in_connected N N N N N N
           Sample.from_slice Sample.from_slice Sample.from_slice
           Sample.to_string Sample.to_string Sample.to_string
           Sample.target Sample.target Sample.target
           Sample.generate_node_id _ _ H _ _ Hs).
Defined.

Lemma send_to_raft_forwards_witness :
  raft (w_net Sample.w_cluster_fired) =
    Some (RaftNode_new (Sample.generate_node_id Sample.local_addr)
                       [Sample.generate_node_id Sample.local_addr; Sample.peer_id]) /\
  Sample.from_slice "{}" = Ok 7 /\
  exists k, Sample.handle_send_to_raft (w_net Sample.w_cluster_fired)
              MsgTypes.AppendEntriesRequest "{}" =
            (w_net Sample.w_cluster_fired,
             Done (Fut (CallAppendEntries _ _ _ _ _ _
                          (RaftNode_new (Sample.generate_node_id Sample.local_addr)
                             [Sample.generate_node_id Sample.local_addr; Sample.peer_id])
                          7 k))).
Proof.
  assert (Hr : raft (w_net Sample.w_cluster_fired) =
               Some (RaftNode_new (Sample.generate_node_id Sample.local_addr)
                       [Sample.generate_node_id Sample.local_addr; Sample.peer_id]))
    by (vm_compute; reflexivity).
  assert (Hd : Sample.from_slice "{}" = Ok 7) by reflexivity.
  split; [exact Hr|]. split; [exact Hd|].
  destruct (proj1 (send_to_raft_forwards N N N N N N
                     Sample.from_slice Sample.from_slice Sample.from_slice
                     Sample.to_string Sample.to_string Sample.to_string
                     (w_net Sample.w_cluster_fired) _ "{}" Hr) 7 Hd) as (k & Hk & _).
  exists k. exact Hk.
Defined.
